(** * Temporal experiment summary helper: a shallow embedding

    This development embeds [synthesize_temporal_summary] of
    [src/perplexity/lib/temporal_summary.py] and proves the properties its
    specification states about the consistency score, the convergence
    notes, the disclaimer and the echo of the input fields.

    Data model.
    - A Python [str] is a [string]; [len] is its number of characters.
    - A Python [int] is a [Z] (unbounded).
    - A Python [float] is a binary64 number, the kernel's [float]; its
      arithmetic is the IEEE 754 round-to-nearest-even arithmetic that
      CPython uses.
    - [ExperimentRecord] is a [TypedDict] declared with [total=False]: every
      key may be absent, hence a record of options.
    - [experiment_details] is a [dict] with string keys and [str | int]
      values: a [gmap string value].
    - A call returns a value or raises an exception: [Py.result]. The only
      steps of the function that can raise are the two conversions of an
      [int] to decimal; [synthesize_temporal_summary] is the summary a
      call returns, [synthesize_temporal_summary_outcome] says whether it
      returns. *)

From Stdlib Require Import ZArith Floats DecimalString.
From Stdlib Require DecimalPos DecimalZ.
From stdpp Require Import gmap strings.

Local Open Scope Z_scope.
#[local] Set Warnings "-inexact-float".

(** ** The Python built-ins the function uses *)

Module Py.

(** Truth value of a [str]: false exactly for the empty string. *)
Definition truthy (s : string) : bool :=
  match s with
  | EmptyString => false
  | String _ _ => true
  end.

(** [a and b] evaluates to [a] when [a] is falsy and to [b] otherwise. *)
Definition and_ (a b : string) : string := if truthy a then b else a.

(** [a or b] evaluates to [a] when [a] is truthy and to [b] otherwise. *)
Definition or_ (a b : string) : string := if truthy a then a else b.

(** [len(s)]. *)
Definition len (s : string) : Z := Z.of_nat (String.length s).

(** [d.get(key, default)] on a key that may be absent. *)
Definition get {A : Type} (field : option A) (default : A) : A :=
  match field with
  | Some v => v
  | None => default
  end.

(** The decimal numeral of an [int]: the digits, after a minus sign when
    [n] is negative. It is what [str(n)] and [f"{n}"] produce when they
    produce a string; [format_int] below says when they do. *)
Definition str (n : Z) : string := NilZero.string_of_int (Z.to_int n).

(** Conversion of an [int] to a [float] (the implicit conversion of
    [int / float] and [float * int]), correctly rounded. It is exact below
    [2 ^ 53]; the function only converts remainders modulo 7. (Beyond the
    largest float CPython raises [OverflowError], which is not modelled.) *)
Definition float_of_int (n : Z) : float :=
  SF2Prim (binary_normalize prec emax n 0 false).

(** The [float] nearest to the rational [n / d], for [0 <= n] and
    [0 < d]: what reading a decimal numeral as a [float] yields. The
    division is the correctly rounded IEEE division, run on the two
    integers as mantissas with exponent 0; [n = 0] yields [0.0]. *)
Definition float_of_ratio (n d : Z) : float :=
  match n, d with
  | Zpos pn, Zpos pd =>
      SF2Prim (SFdiv prec emax (S754_finite false pn 0) (S754_finite false pd 0))
  | _, _ => 0%float
  end.

(** The integer nearest to [num / den], ties to the even one
    ([0 <= num], [0 < den]). *)
Definition round_half_even (num den : Z) : Z :=
  let q := num / den in
  match 2 * (num mod den) ?= den with
  | Lt => q
  | Eq => if Z.even q then q else q + 1
  | Gt => q + 1
  end.

(** [round(x, ndigits)] on a [float]. CPython prints the exact binary
    value of [x] with [ndigits] decimals, correctly rounded (ties to
    even), and reads the numeral back as a [float]. Zeros, infinities and
    NaN are returned as they are. *)
Definition round (x : float) (ndigits : Z) : float :=
  match Prim2SF x with
  | S754_finite s m e =>
      let up := 10 ^ Z.max ndigits 0 in
      let down := 10 ^ Z.max (- ndigits) 0 in
      let n := round_half_even (Zpos m * 2 ^ Z.max e 0 * up)
                               (2 ^ Z.max (- e) 0 * down) in
      let y := float_of_ratio (n * down) up in
      if s then (- y)%float else y
  | _ => x
  end.

(** The exceptions a call can raise. *)
Inductive exception : Type :=
| ValueError.

(** The outcome of evaluating an expression or a call: the value it
    returns or the exception it raises. *)
Inductive result (A : Type) : Type :=
| Returns (a : A)
| Raises (e : exception).

Arguments Returns {A} a.
Arguments Raises {A} e.

(** Sequencing: an exception ends the evaluation. *)
Definition bind {A B : Type} (m : result A) (k : A -> result B) : result B :=
  match m with
  | Returns a => k a
  | Raises e => Raises e
  end.

(** [sys.get_int_max_str_digits()], at its default value. *)
Definition int_max_str_digits : Z := 4300.

(** The number of digits of the numeral of [n], the sign not counted. *)
Definition str_digits (n : Z) : Z :=
  len (str n) - (if n <? 0 then 1 else 0).

(** [f"{n}"] (and [str(n)]) as CPython evaluates it: the conversion of an
    [int] to decimal raises [ValueError] when the numeral has more digits
    than the limit, and yields the numeral otherwise. *)
Definition format_int (n : Z) : result string :=
  if int_max_str_digits <? str_digits n then Raises ValueError
  else Returns (str n).

End Py.

Notation "'let!' x ':=' m 'in' k" := (Py.bind m (fun x => k))
  (at level 10, x name, m at level 100, k at level 200, only parsing).

(** ** Data model *)

(** Input: every key of the [TypedDict] is optional. *)
Record ExperimentRecord : Type := {
  past_state : option string;
  future_constraint : option string;
  final_state : option string;
  seed : option Z;
  iterations : option Z;
  notes : option string
}.

(** A value of [experiment_details]: [str | int]. *)
Inductive value : Type :=
| VStr (s : string)
| VInt (n : Z).

(** Output. *)
Record ExperimentSummary : Type := {
  consistency_score : float;
  convergence_notes : string;
  disclaimer : string;
  experiment_details : gmap string value
}.

(** ** The function *)

(** The sentence chosen from the iteration count (the [if]/[elif] chain
    that first assigns [convergence_notes]). *)
Definition base_notes (iterations : Z) : string :=
  if iterations =? 0 then
    "No iterations recorded; unable to assess convergence."
  else if iterations <? 100 then
    "Simulation ran for " +:+ Py.str iterations +:+
    " iterations. Early termination detected; results may not represent full convergence."
  else if iterations <? 1000 then
    "Simulation completed " +:+ Py.str iterations +:+
    " iterations with moderate convergence characteristics."
  else
    "Simulation completed " +:+ Py.str iterations +:+
    " iterations with good convergence behavior. Stable solution reached.".

Definition synthesize_temporal_summary (record : ExperimentRecord)
  : ExperimentSummary :=
  (* Extract parameters with defaults *)
  let past_state := Py.get (past_state record) "" in
  let future_constraint := Py.get (future_constraint record) "" in
  let final_state := Py.get (final_state record) "" in
  let seed := Py.get (seed record) 0 in
  let iterations := Py.get (iterations record) 0 in
  let notes := Py.get (notes record) "" in
  (* Consistency score from the input lengths *)
  let consistency_score :=
    if Py.truthy (Py.and_ (Py.and_ past_state future_constraint) final_state)
    then
      let len_sum :=
        Py.len past_state + Py.len future_constraint + Py.len final_state in
      Py.round (0.5 + 0.35 * (Py.float_of_int (len_sum mod 7) / 7.0))%float 2
    else 0.0%float in
  (* Convergence notes from the iteration count *)
  let convergence_notes := base_notes iterations in
  (* Seed information for reproducibility *)
  let convergence_notes :=
    if 0 <? seed then
      convergence_notes +:+ " (Reproducible with seed=" +:+ Py.str seed +:+ ")"
    else convergence_notes in
  (* The disclaimer *)
  let disclaimer :=
    "DISCLAIMER: This summary is generated from classical computational inference. " +:+
    "It does NOT represent physical retrocausality or actual backward time propagation. " +:+
    "All analysis is performed using standard forward-time simulation with post-hoc " +:+
    "constraint evaluation. Results should be interpreted as theoretical exploration " +:+
    "of time-symmetric scenarios, not as evidence of acausal phenomena." in
  (* The echo of the input parameters *)
  let experiment_details : gmap string value :=
    <["past_state" := VStr (Py.or_ past_state "(not specified)")]>
    (<["future_constraint" := VStr (Py.or_ future_constraint "(not specified)")]>
    (<["final_state" := VStr (Py.or_ final_state "(not specified)")]>
    (<["seed" := VInt seed]>
    (<["iterations" := VInt iterations]>
    (<["notes" := VStr (Py.or_ notes "(none)")]> ∅))))) in
  {| consistency_score := consistency_score;
     convergence_notes := convergence_notes;
     disclaimer := disclaimer;
     experiment_details := experiment_details |}.

(** ** The function with its failures

    [synthesize_temporal_summary] above is the summary a call returns.
    The two interpolations of an [int] in the convergence notes are the
    only steps of the source that can raise; the definitions below follow
    the source again, statement by statement, with these two steps as
    CPython evaluates them. *)

Definition base_notes_outcome (iterations : Z) : Py.result string :=
  if iterations =? 0 then
    Py.Returns "No iterations recorded; unable to assess convergence."
  else if iterations <? 100 then
    let! shown := Py.format_int iterations in
    Py.Returns ("Simulation ran for " +:+ shown +:+
      " iterations. Early termination detected; results may not represent full convergence.")
  else if iterations <? 1000 then
    let! shown := Py.format_int iterations in
    Py.Returns ("Simulation completed " +:+ shown +:+
      " iterations with moderate convergence characteristics.")
  else
    let! shown := Py.format_int iterations in
    Py.Returns ("Simulation completed " +:+ shown +:+
      " iterations with good convergence behavior. Stable solution reached.").

Definition synthesize_temporal_summary_outcome (record : ExperimentRecord)
  : Py.result ExperimentSummary :=
  (* Extract parameters with defaults *)
  let past_state := Py.get (past_state record) "" in
  let future_constraint := Py.get (future_constraint record) "" in
  let final_state := Py.get (final_state record) "" in
  let seed := Py.get (seed record) 0 in
  let iterations := Py.get (iterations record) 0 in
  let notes := Py.get (notes record) "" in
  (* Consistency score from the input lengths *)
  let consistency_score :=
    if Py.truthy (Py.and_ (Py.and_ past_state future_constraint) final_state)
    then
      let len_sum :=
        Py.len past_state + Py.len future_constraint + Py.len final_state in
      Py.round (0.5 + 0.35 * (Py.float_of_int (len_sum mod 7) / 7.0))%float 2
    else 0.0%float in
  (* Convergence notes from the iteration count *)
  let! convergence_notes := base_notes_outcome iterations in
  (* Seed information for reproducibility *)
  let! convergence_notes :=
    if 0 <? seed then
      let! shown := Py.format_int seed in
      Py.Returns (convergence_notes +:+ " (Reproducible with seed=" +:+ shown +:+ ")")
    else Py.Returns convergence_notes in
  (* The disclaimer *)
  let disclaimer :=
    "DISCLAIMER: This summary is generated from classical computational inference. " +:+
    "It does NOT represent physical retrocausality or actual backward time propagation. " +:+
    "All analysis is performed using standard forward-time simulation with post-hoc " +:+
    "constraint evaluation. Results should be interpreted as theoretical exploration " +:+
    "of time-symmetric scenarios, not as evidence of acausal phenomena." in
  (* The echo of the input parameters *)
  let experiment_details : gmap string value :=
    <["past_state" := VStr (Py.or_ past_state "(not specified)")]>
    (<["future_constraint" := VStr (Py.or_ future_constraint "(not specified)")]>
    (<["final_state" := VStr (Py.or_ final_state "(not specified)")]>
    (<["seed" := VInt seed]>
    (<["iterations" := VInt iterations]>
    (<["notes" := VStr (Py.or_ notes "(none)")]> ∅))))) in
  Py.Returns
    {| consistency_score := consistency_score;
       convergence_notes := convergence_notes;
       disclaimer := disclaimer;
       experiment_details := experiment_details |}.

(** The numeral of [n] is longer than the conversion limit. *)
Definition overlong (n : Z) : Prop := Py.int_max_str_digits < Py.str_digits n.

(** The call interpolates an overlong number: the iteration count, which
    is shown unless it is zero, or the seed, which is shown when it is
    positive. *)
Definition shows_overlong (r : ExperimentRecord) : Prop :=
  (Py.get (iterations r) 0 <> 0 /\ overlong (Py.get (iterations r) 0))
  \/ (0 < Py.get (seed r) 0 /\ overlong (Py.get (seed r) 0)).

(** A record with nothing but a negative iteration count of 5001 digits. *)
Definition huge_negative : ExperimentRecord :=
  {| past_state := None; future_constraint := None; final_state := None;
     seed := None; iterations := Some (- 10 ^ 5000); notes := None |}.

(** A record with nothing but the iteration count [-5]. *)
Definition minus_five : ExperimentRecord :=
  {| past_state := None; future_constraint := None; final_state := None;
     seed := None; iterations := Some (-5); notes := None |}.

(** ** Vocabulary of the statements *)

(** The values the function extracts from a record: the field when the key
    is present, its default otherwise. *)
Definition past_of (r : ExperimentRecord) : string := Py.get (past_state r) "".
Definition future_of (r : ExperimentRecord) : string := Py.get (future_constraint r) "".
Definition final_of (r : ExperimentRecord) : string := Py.get (final_state r) "".
Definition seed_of (r : ExperimentRecord) : Z := Py.get (seed r) 0.
Definition iterations_of (r : ExperimentRecord) : Z := Py.get (iterations r) 0.
Definition notes_of (r : ExperimentRecord) : string := Py.get (notes r) "".

(** The total length the score is computed from. *)
Definition len_sum_of (r : ExperimentRecord) : Z :=
  Py.len (past_of r) + Py.len (future_of r) + Py.len (final_of r).

(** The score formula as the specification writes it, with Python's
    precedence: [0.35 * k / 7.0] is [(0.35 * k) / 7.0]. *)
Definition spec_score (len_sum : Z) : float :=
  Py.round (0.5 + 0.35 * Py.float_of_int (len_sum mod 7) / 7.0)%float 2.

(** The score the source computes once the remainder [k] is known. *)
Definition code_score (k : Z) : float :=
  Py.round (0.5 + 0.35 * (Py.float_of_int k / 7.0))%float 2.

(** What follows the base sentence in [convergence_notes]. *)
Definition seed_suffix (seed : Z) : string :=
  if 0 <? seed then " (Reproducible with seed=" +:+ Py.str seed +:+ ")" else "".

(** A text of [experiment_details] under key [k] echoes the extracted
    value [v], with [placeholder] standing for the empty string. *)
Definition echoes_text (d : gmap string value) (k v placeholder : string) : Prop :=
  (v = "" -> d !! k = Some (VStr placeholder))
  /\ (v <> "" -> d !! k = Some (VStr v)).

(** The keys of an experiment record. *)
Inductive key : Type :=
| k_past_state | k_future_constraint | k_final_state
| k_seed | k_iterations | k_notes.

(** The record without key [k]. *)
Definition without (k : key) (r : ExperimentRecord) : ExperimentRecord :=
  match k with
  | k_past_state =>
      {| past_state := None; future_constraint := future_constraint r;
         final_state := final_state r; seed := seed r;
         iterations := iterations r; notes := notes r |}
  | k_future_constraint =>
      {| past_state := past_state r; future_constraint := None;
         final_state := final_state r; seed := seed r;
         iterations := iterations r; notes := notes r |}
  | k_final_state =>
      {| past_state := past_state r; future_constraint := future_constraint r;
         final_state := None; seed := seed r;
         iterations := iterations r; notes := notes r |}
  | k_seed =>
      {| past_state := past_state r; future_constraint := future_constraint r;
         final_state := final_state r; seed := None;
         iterations := iterations r; notes := notes r |}
  | k_iterations =>
      {| past_state := past_state r; future_constraint := future_constraint r;
         final_state := final_state r; seed := seed r;
         iterations := None; notes := notes r |}
  | k_notes =>
      {| past_state := past_state r; future_constraint := future_constraint r;
         final_state := final_state r; seed := seed r;
         iterations := iterations r; notes := None |}
  end.

(** The record with key [k] present and holding its default value: the
    empty string for the four texts, [0] for the two integers. *)
Definition with_default (k : key) (r : ExperimentRecord) : ExperimentRecord :=
  match k with
  | k_past_state =>
      {| past_state := Some ""; future_constraint := future_constraint r;
         final_state := final_state r; seed := seed r;
         iterations := iterations r; notes := notes r |}
  | k_future_constraint =>
      {| past_state := past_state r; future_constraint := Some "";
         final_state := final_state r; seed := seed r;
         iterations := iterations r; notes := notes r |}
  | k_final_state =>
      {| past_state := past_state r; future_constraint := future_constraint r;
         final_state := Some ""; seed := seed r;
         iterations := iterations r; notes := notes r |}
  | k_seed =>
      {| past_state := past_state r; future_constraint := future_constraint r;
         final_state := final_state r; seed := Some 0;
         iterations := iterations r; notes := notes r |}
  | k_iterations =>
      {| past_state := past_state r; future_constraint := future_constraint r;
         final_state := final_state r; seed := seed r;
         iterations := Some 0; notes := notes r |}
  | k_notes =>
      {| past_state := past_state r; future_constraint := future_constraint r;
         final_state := final_state r; seed := seed r;
         iterations := iterations r; notes := Some "" |}
  end.

(** The first record of the demonstration script. *)
Definition experiment_1 : ExperimentRecord :=
  {| past_state := Some "quantum_system_ground_state";
     future_constraint := Some "excited_state_target_energy_5.2eV";
     final_state := Some "excited_state_achieved_energy_5.18eV";
     seed := Some 42;
     iterations := Some 1500;
     notes := Some "Standard perturbation analysis with time-symmetric boundary conditions" |}.

(** The second record of the demonstration script. *)
Definition experiment_2 : ExperimentRecord :=
  {| past_state := Some "initial";
     future_constraint := Some "target";
     final_state := Some "result";
     seed := Some 123;
     iterations := Some 50;
     notes := Some "Quick test run" |}.

(** A record with no key at all. *)
Definition empty_record : ExperimentRecord :=
  {| past_state := None; future_constraint := None; final_state := None;
     seed := None; iterations := None; notes := None |}.

(** ** Vocabulary of the further properties *)

(** A record is complete when its three texts are non-empty: the
    condition under which the source computes a score. *)
Definition complete (r : ExperimentRecord) : Prop :=
  past_of r <> "" /\ future_of r <> "" /\ final_of r <> "".

(** The remainder the score is computed from. *)
Definition remainder_of (r : ExperimentRecord) : Z := len_sum_of r mod 7.

(** The record with key [past_state] set to [s]. *)
Definition with_past_state (s : string) (r : ExperimentRecord) : ExperimentRecord :=
  {| past_state := Some s; future_constraint := future_constraint r;
     final_state := final_state r; seed := seed r;
     iterations := iterations r; notes := notes r |}.

(** Under key [k] the mapping [d] holds a non-empty text. *)
Definition holds_text (d : gmap string value) (k : string) : Prop :=
  exists s : string, d !! k = Some (VStr s) /\ s <> "".

(** The characters that follow a number in the notes: the space and the
    closing parenthesis. *)
Definition is_separator (c : Ascii.ascii) : Prop :=
  c = Ascii.ascii_of_nat 32 \/ c = Ascii.ascii_of_nat 41.

(** The character [c] does not occur in [s]. *)
Fixpoint lacks (c : Ascii.ascii) (s : string) : bool :=
  match s with
  | EmptyString => true
  | String a s' => negb (Ascii.eqb a c) && lacks c s'
  end.

(** A record whose three texts have two characters each. *)
Definition six_chars : ExperimentRecord :=
  {| past_state := Some "ab"; future_constraint := Some "cd";
     final_state := Some "ef"; seed := None; iterations := None;
     notes := None |}.

(** ** Basic facts about the built-ins *)

Section Builtins.

Lemma truthy_true (s : string) : Py.truthy s = true <-> s <> "".
Proof. destruct s; simpl; split; intros H; congruence. Qed.

Lemma truthy_false (s : string) : Py.truthy s = false <-> s = "".
Proof. destruct s; simpl; split; intros H; congruence. Qed.

(** The chained [and] of the source is truthy exactly when its three
    operands are. *)
Lemma truthy_and3 (a b c : string) :
  Py.truthy (Py.and_ (Py.and_ a b) c)
  = Py.truthy a && Py.truthy b && Py.truthy c.
Proof. destruct a, b, c; reflexivity. Qed.

Lemma or_empty (d : string) : Py.or_ "" d = d.
Proof. reflexivity. Qed.

Lemma or_nonempty (s d : string) : s <> "" -> Py.or_ s d = s.
Proof. destruct s; [congruence | reflexivity]. Qed.

Lemma append_empty_r (s : string) : s +:+ "" = s.
Proof.
  induction s as [|c s IH]; [reflexivity |].
  change (String c (s +:+ "") = String c s). now f_equal.
Qed.

(** [str] of a negative integer is a minus sign and the digits of its
    absolute value. *)
Lemma str_negative (n : Z) : n < 0 -> Py.str n = "-" +:+ Py.str (- n).
Proof. destruct n as [|p|p]; intros H; try lia. reflexivity. Qed.

Lemma len_nonneg (s : string) : 0 <= Py.len s.
Proof. unfold Py.len. lia. Qed.

Example str_examples :
  Py.str 0 = "0" /\ Py.str 1500 = "1500" /\ Py.str (-17) = "-17".
Proof. repeat split. Qed.

(** [round] on the example of the Python documentation
    ([round(2.675, 2)] is [2.67]), on ties, on a negative number of
    digits and on a negative value that rounds to zero. *)
Example round_examples :
  Py.round 2.675 2 = 2.67%float
  /\ Py.round 0.125 2 = 0.12%float
  /\ Py.round 0.375 2 = 0.38%float
  /\ Py.round 2.5 0 = 2%float
  /\ Py.round 1234.5678 (-2) = 1200%float
  /\ Py.round (-0.001) 2 = (-0)%float.
Proof. repeat split. Qed.

End Builtins.

(** ** The consistency score *)

Section Score.


(** The seven values the score can take: the source's formula, the
    specification's formula and the float nearest to [(50 + 5 k) / 100]
    agree on each remainder. *)
Lemma score_table (k : Z) :
  0 <= k < 7 ->
  code_score k = Py.float_of_ratio (50 + 5 * k) 100
  /\ Py.round (0.5 + 0.35 * Py.float_of_int k / 7.0)%float 2
     = Py.float_of_ratio (50 + 5 * k) 100.
Proof.
  intros Hk.
  assert (Hcases : k = 0 \/ k = 1 \/ k = 2 \/ k = 3 \/ k = 4 \/ k = 5 \/ k = 6)
    by lia.
  unfold code_score.
  repeat destruct Hcases as [-> | Hcases]; try subst k;
    split; vm_compute; reflexivity.
Qed.

(** The score is bounded on each remainder. *)
Lemma score_table_bounds (k : Z) :
  0 <= k < 7 ->
  (0.0 <=? code_score k)%float = true /\ (code_score k <=? 0.85)%float = true.
Proof.
  intros Hk.
  assert (Hcases : k = 0 \/ k = 1 \/ k = 2 \/ k = 3 \/ k = 4 \/ k = 5 \/ k = 6)
    by lia.
  unfold code_score.
  repeat destruct Hcases as [-> | Hcases]; try subst k;
    split; vm_compute; reflexivity.
Qed.

(** The score of a record, unfolded. *)
Lemma score_unfold (r : ExperimentRecord) :
  consistency_score (synthesize_temporal_summary r)
  = if Py.truthy (past_of r) && Py.truthy (future_of r) && Py.truthy (final_of r)
    then code_score (len_sum_of r mod 7)
    else 0.0%float.
Proof.
  unfold synthesize_temporal_summary, code_score, len_sum_of,
    past_of, future_of, final_of.
  cbn [consistency_score]. now rewrite truthy_and3.
Qed.

Lemma remainder_range (r : ExperimentRecord) : 0 <= len_sum_of r mod 7 < 7.
Proof. apply Z.mod_pos_bound. lia. Qed.

(** C1. For every record whose three texts are non-empty, the score is
    the value of the specification's formula
    [round(0.5 + 0.35 * (len_sum % 7) / 7.0, 2)], and it has exactly two
    decimals: it is the float nearest to [(50 + 5 * (len_sum % 7)) / 100]. *)
Theorem score_formula (r : ExperimentRecord) :
  past_of r <> "" -> future_of r <> "" -> final_of r <> "" ->
  consistency_score (synthesize_temporal_summary r) = spec_score (len_sum_of r)
  /\ consistency_score (synthesize_temporal_summary r)
     = Py.float_of_ratio (50 + 5 * (len_sum_of r mod 7)) 100.
Proof.
  intros Hp Hf Hl. rewrite score_unfold.
  apply truthy_true in Hp, Hf, Hl. rewrite Hp, Hf, Hl. simpl andb. cbv iota.
  destruct (score_table _ (remainder_range r)) as [Hcode Hspec].
  unfold spec_score. rewrite Hcode, Hspec. split; reflexivity.
Qed.

Lemma score_formula_witness :
  consistency_score (synthesize_temporal_summary experiment_2)
  = spec_score (len_sum_of experiment_2)
  /\ consistency_score (synthesize_temporal_summary experiment_2)
     = Py.float_of_ratio (50 + 5 * (len_sum_of experiment_2 mod 7)) 100.
Proof. apply (score_formula experiment_2); vm_compute; discriminate. Defined.

(** C2. For every record the score lies between 0.0 and 0.85, and it is
    exactly 0.0 as soon as one of the three texts is empty or absent. *)
Theorem score_bounded (r : ExperimentRecord) :
  (0.0 <=? consistency_score (synthesize_temporal_summary r))%float = true
  /\ (consistency_score (synthesize_temporal_summary r) <=? 0.85)%float = true
  /\ (past_of r = "" \/ future_of r = "" \/ final_of r = "" ->
      consistency_score (synthesize_temporal_summary r) = 0.0%float).
Proof.
  rewrite score_unfold.
  destruct (Py.truthy (past_of r)) eqn:Hp;
    destruct (Py.truthy (future_of r)) eqn:Hf;
    destruct (Py.truthy (final_of r)) eqn:Hl; simpl andb; cbv iota;
    try (split; [reflexivity | split; [reflexivity | intros _; reflexivity]]).
  destruct (score_table_bounds _ (remainder_range r)) as [Hlo Hhi].
  split; [exact Hlo | split; [exact Hhi |]].
  apply truthy_true in Hp, Hf, Hl. intros [H | [H | H]]; contradiction.
Qed.

(** A record whose keys are all absent has score 0.0. *)
Lemma score_bounded_witness :
  consistency_score (synthesize_temporal_summary empty_record) = 0.0%float.
Proof.
  apply (score_bounded empty_record). left. reflexivity.
Defined.

End Score.

(** ** The convergence notes *)

Section Notes.

(** The notes of a record are its base sentence followed by the seed
    suffix. *)
Lemma notes_unfold (r : ExperimentRecord) :
  convergence_notes (synthesize_temporal_summary r)
  = base_notes (iterations_of r) +:+ seed_suffix (seed_of r).
Proof.
  unfold synthesize_temporal_summary, seed_suffix, seed_of, iterations_of.
  cbn [convergence_notes].
  destruct (0 <? Py.get (seed r) 0); [reflexivity |].
  now rewrite append_empty_r.
Qed.

Lemma base_notes_zero : 
  base_notes 0 = "No iterations recorded; unable to assess convergence.".
Proof. reflexivity. Qed.

Lemma base_notes_early (n : Z) :
  n <> 0 -> n < 100 ->
  base_notes n = "Simulation ran for " +:+ Py.str n +:+
    " iterations. Early termination detected; results may not represent full convergence.".
Proof.
  intros H0 H100. unfold base_notes.
  destruct (Z.eqb_spec n 0); [contradiction |].
  destruct (Z.ltb_spec n 100); [reflexivity | lia].
Qed.

Lemma base_notes_moderate (n : Z) :
  100 <= n < 1000 ->
  base_notes n = "Simulation completed " +:+ Py.str n +:+
    " iterations with moderate convergence characteristics.".
Proof.
  intros H. unfold base_notes.
  destruct (Z.eqb_spec n 0); [lia |].
  destruct (Z.ltb_spec n 100); [lia |].
  destruct (Z.ltb_spec n 1000); [reflexivity | lia].
Qed.

Lemma base_notes_good (n : Z) :
  1000 <= n ->
  base_notes n = "Simulation completed " +:+ Py.str n +:+
    " iterations with good convergence behavior. Stable solution reached.".
Proof.
  intros H. unfold base_notes.
  destruct (Z.eqb_spec n 0); [lia |].
  destruct (Z.ltb_spec n 100); [lia |].
  destruct (Z.ltb_spec n 1000); [lia | reflexivity].
Qed.

(** C3. The base sentence of [convergence_notes] is selected by the
    thresholds 0, 100 and 1000 on the iteration count; in particular 99
    gives the early-termination sentence, 100 and 999 the moderate one,
    and 1000 the good-convergence one. The seed suffix, when there is
    one, follows the sentence. *)
Theorem notes_thresholds (r : ExperimentRecord) :
  let n := iterations_of r in
  let notes := convergence_notes (synthesize_temporal_summary r) in
  let suffix := seed_suffix (seed_of r) in
  (n = 0 ->
   notes = "No iterations recorded; unable to assess convergence." +:+ suffix)
  /\ (0 < n < 100 ->
      notes = ("Simulation ran for " +:+ Py.str n +:+
        " iterations. Early termination detected; results may not represent full convergence.")
        +:+ suffix)
  /\ (100 <= n < 1000 ->
      notes = ("Simulation completed " +:+ Py.str n +:+
        " iterations with moderate convergence characteristics.") +:+ suffix)
  /\ (1000 <= n ->
      notes = ("Simulation completed " +:+ Py.str n +:+
        " iterations with good convergence behavior. Stable solution reached.")
        +:+ suffix)
  /\ (n = 99 ->
      notes = "Simulation ran for 99 iterations. Early termination detected; results may not represent full convergence."
        +:+ suffix)
  /\ (n = 100 ->
      notes = "Simulation completed 100 iterations with moderate convergence characteristics."
        +:+ suffix)
  /\ (n = 999 ->
      notes = "Simulation completed 999 iterations with moderate convergence characteristics."
        +:+ suffix)
  /\ (n = 1000 ->
      notes = "Simulation completed 1000 iterations with good convergence behavior. Stable solution reached."
        +:+ suffix).
Proof.
  intros n notes suffix. subst notes suffix. rewrite notes_unfold.
  fold n. repeat split; intros H.
  - now rewrite H.
  - rewrite base_notes_early by lia. reflexivity.
  - rewrite base_notes_moderate by lia. reflexivity.
  - rewrite base_notes_good by lia. reflexivity.
  - now rewrite H.
  - now rewrite H.
  - now rewrite H.
  - now rewrite H.
Qed.

(** The second demonstration record runs 50 iterations with seed 123. *)
Lemma notes_thresholds_witness :
  convergence_notes (synthesize_temporal_summary experiment_2)
  = "Simulation ran for 50 iterations. Early termination detected; results may not represent full convergence. (Reproducible with seed=123)".
Proof.
  apply (notes_thresholds experiment_2). vm_compute. split; reflexivity.
Defined.

(** C4. When [seed > 0] the notes are the base sentence, a space and
    [(Reproducible with seed=N)], in one string; when [seed <= 0] (zero,
    negative or absent) the notes are the base sentence alone. *)
Theorem notes_seed_suffix (r : ExperimentRecord) :
  (0 < seed_of r ->
   convergence_notes (synthesize_temporal_summary r)
   = base_notes (iterations_of r) +:+ " " +:+
     "(Reproducible with seed=" +:+ Py.str (seed_of r) +:+ ")")
  /\ (seed_of r <= 0 ->
      convergence_notes (synthesize_temporal_summary r)
      = base_notes (iterations_of r)).
Proof.
  rewrite notes_unfold. unfold seed_suffix.
  destruct (Z.ltb_spec 0 (seed_of r)) as [Hpos | Hneg]; split; intros H; try lia.
  - reflexivity.
  - apply append_empty_r.
Qed.

Lemma notes_seed_suffix_witness :
  convergence_notes (synthesize_temporal_summary experiment_1)
  = base_notes 1500 +:+ " " +:+ "(Reproducible with seed=" +:+ "42" +:+ ")".
Proof. apply (notes_seed_suffix experiment_1). reflexivity. Defined.

(** The summary returned for a negative iteration count: the notes are
    the early-termination sentence with the negative number interpolated,
    minus sign included, followed by the seed suffix if any, and
    [experiment_details] echoes the negative count unchanged. Whether the
    call returns is settled in the last part of this file. *)
Lemma negative_iterations_value (r : ExperimentRecord) (n : Z) :
  iterations r = Some n -> n < 0 ->
  convergence_notes (synthesize_temporal_summary r)
  = ("Simulation ran for " +:+ Py.str n +:+
     " iterations. Early termination detected; results may not represent full convergence.")
    +:+ seed_suffix (seed_of r)
  /\ Py.str n = "-" +:+ Py.str (- n)
  /\ experiment_details (synthesize_temporal_summary r) !! "iterations"
     = Some (VInt n).
Proof.
  intros Hn Hneg. rewrite notes_unfold. unfold iterations_of. rewrite Hn.
  cbn [Py.get]. rewrite base_notes_early by lia.
  split; [reflexivity |]. split; [now apply str_negative |].
  unfold synthesize_temporal_summary. cbn [experiment_details].
  rewrite Hn. cbn [Py.get]. reflexivity.
Qed.

End Notes.

(** ** The disclaimer and the echo of the input *)

Section Echo.

Lemma details_unfold (r : ExperimentRecord) :
  experiment_details (synthesize_temporal_summary r)
  = <["past_state" := VStr (Py.or_ (past_of r) "(not specified)")]>
    (<["future_constraint" := VStr (Py.or_ (future_of r) "(not specified)")]>
    (<["final_state" := VStr (Py.or_ (final_of r) "(not specified)")]>
    (<["seed" := VInt (seed_of r)]>
    (<["iterations" := VInt (iterations_of r)]>
    (<["notes" := VStr (Py.or_ (notes_of r) "(none)")]> ∅))))).
Proof. reflexivity. Qed.

Lemma echoes_text_or (d : gmap string value) (k v placeholder : string) :
  d !! k = Some (VStr (Py.or_ v placeholder)) -> echoes_text d k v placeholder.
Proof.
  intros Hk. split; intros Hv.
  - now rewrite Hk, Hv.
  - now rewrite Hk, or_nonempty.
Qed.

(** C5. In [experiment_details] each of [past_state], [future_constraint]
    and [final_state] is [(not specified)] when its extracted value is
    empty and the value itself otherwise; [notes] is [(none)] when empty
    and itself otherwise; [seed] and [iterations] are echoed as integers,
    whatever their value; and there is no other key. *)
Theorem details_echo (r : ExperimentRecord) :
  let d := experiment_details (synthesize_temporal_summary r) in
  echoes_text d "past_state" (past_of r) "(not specified)"
  /\ echoes_text d "future_constraint" (future_of r) "(not specified)"
  /\ echoes_text d "final_state" (final_of r) "(not specified)"
  /\ echoes_text d "notes" (notes_of r) "(none)"
  /\ d !! "seed" = Some (VInt (seed_of r))
  /\ d !! "iterations" = Some (VInt (iterations_of r))
  /\ dom d = ({[ "past_state"; "future_constraint"; "final_state";
                "seed"; "iterations"; "notes" ]} : gset string).
Proof.
  intros d. subst d. rewrite details_unfold.
  split; [apply echoes_text_or; reflexivity |].
  split; [apply echoes_text_or; reflexivity |].
  split; [apply echoes_text_or; reflexivity |].
  split; [apply echoes_text_or; reflexivity |].
  split; [reflexivity |]. split; [reflexivity |].
  rewrite !dom_insert_L, dom_empty_L. set_solver.
Qed.

(** With every key absent: placeholders for the texts, [0] for the
    integers. *)
Lemma details_echo_witness :
  let d := experiment_details (synthesize_temporal_summary empty_record) in
  d !! "past_state" = Some (VStr "(not specified)")
  /\ d !! "notes" = Some (VStr "(none)")
  /\ d !! "seed" = Some (VInt 0)
  /\ d !! "iterations" = Some (VInt 0).
Proof.
  intros d.
  destruct (details_echo empty_record) as (Hp & _ & _ & Hn & Hs & Hi & _).
  split; [apply Hp; reflexivity |].
  split; [apply Hn; reflexivity |].
  split; [exact Hs | exact Hi].
Defined.

(** C7. The disclaimer does not depend on the record: any two calls
    return the same text, which is the one written in the source. *)
Theorem disclaimer_constant (r1 r2 : ExperimentRecord) :
  disclaimer (synthesize_temporal_summary r1)
  = disclaimer (synthesize_temporal_summary r2)
  /\ disclaimer (synthesize_temporal_summary r1)
     = "DISCLAIMER: This summary is generated from classical computational inference. It does NOT represent physical retrocausality or actual backward time propagation. All analysis is performed using standard forward-time simulation with post-hoc constraint evaluation. Results should be interpreted as theoretical exploration of time-symmetric scenarios, not as evidence of acausal phenomena.".
Proof. split; reflexivity. Qed.

End Echo.

(** ** The function as a whole *)

Section Whole.

(** The summary depends on the record only through the six values
    extracted from it. *)
Lemma summary_of_extracted_values (r1 r2 : ExperimentRecord) :
  past_of r1 = past_of r2 ->
  future_of r1 = future_of r2 ->
  final_of r1 = final_of r2 ->
  seed_of r1 = seed_of r2 ->
  iterations_of r1 = iterations_of r2 ->
  notes_of r1 = notes_of r2 ->
  synthesize_temporal_summary r1 = synthesize_temporal_summary r2
  /\ consistency_score (synthesize_temporal_summary r1)
     = consistency_score (synthesize_temporal_summary r2)
  /\ convergence_notes (synthesize_temporal_summary r1)
     = convergence_notes (synthesize_temporal_summary r2)
  /\ disclaimer (synthesize_temporal_summary r1)
     = disclaimer (synthesize_temporal_summary r2)
  /\ experiment_details (synthesize_temporal_summary r1)
     = experiment_details (synthesize_temporal_summary r2).
Proof.
  unfold past_of, future_of, final_of, seed_of, iterations_of, notes_of.
  intros Hp Hf Hl Hs Hi Hn.
  assert (Heq : synthesize_temporal_summary r1 = synthesize_temporal_summary r2).
  { unfold synthesize_temporal_summary.
    rewrite Hp, Hf, Hl, Hs, Hi, Hn. reflexivity. }
  rewrite Heq. repeat split.
Qed.

(** C9. A record without a key and the record holding that key with its
    default value have the same summary. *)
Theorem absent_is_default (r : ExperimentRecord) (k : key) :
  synthesize_temporal_summary (without k r)
  = synthesize_temporal_summary (with_default k r).
Proof. destruct k; reflexivity. Qed.

(** The lengths of the three texts of the first demonstration record. *)
Lemma experiment_1_lengths :
  Py.len "quantum_system_ground_state" = 27
  /\ Py.len "excited_state_target_energy_5.2eV" = 33
  /\ Py.len "excited_state_achieved_energy_5.18eV" = 36
  /\ len_sum_of experiment_1 = 96
  /\ len_sum_of experiment_1 mod 7 = 5.
Proof. repeat split. Qed.

(** C8, counterexample. On the first demonstration record the score is
    not 0.5. *)
Lemma experiment_1_score_not_half :
  consistency_score (synthesize_temporal_summary experiment_1) <> 0.5%float.
Proof.
  intros Hscore.
  apply (f_equal Prim2SF) in Hscore. vm_compute in Hscore. discriminate.
Qed.

(** C8, amended. On the first demonstration record the three lengths are
    27, 33 and 36, their sum 96 leaves remainder 5, the score is 0.75,
    and the notes are the good-convergence sentence with the seed
    suffix. *)
Theorem experiment_1_summary :
  consistency_score (synthesize_temporal_summary experiment_1) = 0.75%float
  /\ convergence_notes (synthesize_temporal_summary experiment_1)
     = "Simulation completed 1500 iterations with good convergence behavior. Stable solution reached. (Reproducible with seed=42)".
Proof. split; vm_compute; reflexivity. Qed.

(** The second demonstration record: lengths 7, 6 and 6, remainder 5. *)
Example experiment_2_summary :
  len_sum_of experiment_2 = 19
  /\ consistency_score (synthesize_temporal_summary experiment_2) = 0.75%float
  /\ convergence_notes (synthesize_temporal_summary experiment_2)
     = "Simulation ran for 50 iterations. Early termination detected; results may not represent full convergence. (Reproducible with seed=123)".
Proof. repeat split. Qed.

(** The record of the docstring: lengths 23, 14 and 22, remainder 3,
    score 0.65. *)
Example docstring_record_score :
  consistency_score
    (synthesize_temporal_summary
       {| past_state := Some "initial_configuration_A";
          future_constraint := Some "target_state_B";
          final_state := Some "achieved_state_B_prime";
          seed := Some 42;
          iterations := Some 1000;
          notes := Some "Test run with standard parameters" |})
  = 0.65%float.
Proof. vm_compute. reflexivity. Qed.

End Whole.


(** ** Further properties of the score *)

Section ScoreShape.

(** Case analysis on a remainder modulo 7. *)
Lemma remainder_cases (k : Z) :
  0 <= k < 7 -> k = 0 \/ k = 1 \/ k = 2 \/ k = 3 \/ k = 4 \/ k = 5 \/ k = 6.
Proof. lia. Qed.

Ltac each_remainder H :=
  apply remainder_cases in H;
  repeat (destruct H as [-> | H]); try subst.

(** Two floats with different IEEE decompositions are different. *)
Ltac floats_differ H :=
  apply (f_equal Prim2SF) in H; vm_compute in H; discriminate H.

Lemma complete_truthy (r : ExperimentRecord) :
  complete r <->
  Py.truthy (past_of r) && Py.truthy (future_of r) && Py.truthy (final_of r) = true.
Proof.
  unfold complete. rewrite !andb_true_iff, !truthy_true. tauto.
Qed.

Lemma complete_dec (r : ExperimentRecord) : complete r \/ ~ complete r.
Proof.
  rewrite complete_truthy.
  destruct (Py.truthy (past_of r) && Py.truthy (future_of r) && Py.truthy (final_of r));
    [left | right]; congruence.
Qed.

Lemma incomplete_iff (r : ExperimentRecord) :
  ~ complete r <-> past_of r = "" \/ future_of r = "" \/ final_of r = "".
Proof.
  unfold complete.
  destruct (past_of r), (future_of r), (final_of r); split; intros H;
    try tauto; try (exfalso; apply H; repeat split; discriminate);
    try (intros (? & ? & ?); destruct H as [H | [H | H]]; congruence).
Qed.

Lemma score_complete (r : ExperimentRecord) :
  complete r ->
  consistency_score (synthesize_temporal_summary r) = code_score (remainder_of r).
Proof.
  intros H. rewrite score_unfold. apply complete_truthy in H. now rewrite H.
Qed.

Lemma score_incomplete (r : ExperimentRecord) :
  ~ complete r -> consistency_score (synthesize_temporal_summary r) = 0.0%float.
Proof.
  intros H. rewrite score_unfold. rewrite complete_truthy in H.
  now destruct (Py.truthy (past_of r) && Py.truthy (future_of r) && Py.truthy (final_of r)).
Qed.

Lemma remainder_of_range (r : ExperimentRecord) : 0 <= remainder_of r < 7.
Proof. apply remainder_range. Qed.

Lemma code_score_range (k : Z) :
  0 <= k < 7 ->
  (0.5 <=? code_score k)%float = true /\ (code_score k <=? 0.8)%float = true.
Proof. intros H. each_remainder H; split; vm_compute; reflexivity. Qed.

Lemma code_score_increasing (j k : Z) :
  0 <= j < 7 -> 0 <= k < 7 -> j < k ->
  (code_score j <? code_score k)%float = true.
Proof.
  intros Hj Hk Hlt. each_remainder Hj; each_remainder Hk;
    try lia; vm_compute; reflexivity.
Qed.

Lemma code_score_inj (j k : Z) :
  0 <= j < 7 -> 0 <= k < 7 -> code_score j = code_score k -> j = k.
Proof.
  intros Hj Hk Heq. each_remainder Hj; each_remainder Hk;
    try reflexivity; floats_differ Heq.
Qed.

Lemma code_score_nonzero (k : Z) : 0 <= k < 7 -> code_score k <> 0.0%float.
Proof. intros H Heq. each_remainder H; floats_differ Heq. Qed.

Lemma code_score_rounded (k : Z) :
  0 <= k < 7 -> Py.round (code_score k) 2 = code_score k.
Proof. intros H. each_remainder H; vm_compute; reflexivity. Qed.

(** X1. The score never exceeds 0.8, a value it does take; the 0.85 that the
    docstring prints for its example is never returned, and neither is
    1.0, the upper end of the range the docstring announces. *)
Theorem score_at_most_080 :
  (forall r : ExperimentRecord,
      (consistency_score (synthesize_temporal_summary r) <=? 0.8)%float = true
      /\ consistency_score (synthesize_temporal_summary r) <> 0.85%float
      /\ consistency_score (synthesize_temporal_summary r) <> 1%float)
  /\ consistency_score (synthesize_temporal_summary six_chars) = 0.8%float.
Proof.
  split; [| vm_compute; reflexivity].
  intros r.
  assert (Hle : (consistency_score (synthesize_temporal_summary r) <=? 0.8)%float = true).
  { destruct (complete_dec r) as [Hc | Hc].
    - rewrite (score_complete r Hc). apply code_score_range, remainder_of_range.
    - rewrite (score_incomplete r Hc). reflexivity. }
  split; [exact Hle |].
  split; intros Heq; rewrite Heq in Hle; vm_compute in Hle; discriminate Hle.
Qed.

(** X2. The score is 0.0 exactly when one of the three texts is empty or
    absent; otherwise it is at least 0.5. No score lies strictly between
    the two. *)
Theorem score_zero_iff (r : ExperimentRecord) :
  (consistency_score (synthesize_temporal_summary r) = 0.0%float
   <-> past_of r = "" \/ future_of r = "" \/ final_of r = "")
  /\ (complete r ->
      (0.5 <=? consistency_score (synthesize_temporal_summary r))%float = true).
Proof.
  split.
  - rewrite <- incomplete_iff. split.
    + intros Hz Hc. rewrite (score_complete r Hc) in Hz.
      exact (code_score_nonzero _ (remainder_of_range r) Hz).
    + apply score_incomplete.
  - intros Hc. rewrite (score_complete r Hc).
    apply code_score_range, remainder_of_range.
Qed.

Lemma score_zero_iff_witness :
  (0.5 <=? consistency_score (synthesize_temporal_summary experiment_2))%float = true.
Proof.
  apply (score_zero_iff experiment_2). repeat split; discriminate.
Defined.

(** X3. Two records have the same score exactly when both miss a text, or
    both are complete and their total lengths agree modulo 7: the score
    sees nothing else of the record. *)
Theorem score_eq_iff (r1 r2 : ExperimentRecord) :
  consistency_score (synthesize_temporal_summary r1)
  = consistency_score (synthesize_temporal_summary r2)
  <-> (~ complete r1 /\ ~ complete r2)
      \/ (complete r1 /\ complete r2 /\ remainder_of r1 = remainder_of r2).
Proof.
  destruct (complete_dec r1) as [H1 | H1], (complete_dec r2) as [H2 | H2].
  - rewrite (score_complete r1 H1), (score_complete r2 H2). split.
    + intros Heq. right. split; [assumption |]. split; [assumption |].
      apply code_score_inj; auto using remainder_of_range.
    + intros [[? _] | (_ & _ & ->)]; [contradiction | reflexivity].
  - rewrite (score_complete r1 H1), (score_incomplete r2 H2). split.
    + intros Heq. exfalso.
      exact (code_score_nonzero _ (remainder_of_range r1) Heq).
    + intros [[? _] | (_ & ? & _)]; contradiction.
  - rewrite (score_incomplete r1 H1), (score_complete r2 H2). split.
    + intros Heq. exfalso. symmetry in Heq.
      exact (code_score_nonzero _ (remainder_of_range r2) Heq).
    + intros [[_ ?] | (? & _ & _)]; contradiction.
  - rewrite (score_incomplete r1 H1), (score_incomplete r2 H2). split.
    + intros _. left. split; assumption.
    + reflexivity.
Qed.

(** X4. Among complete records the score grows strictly with the remainder
    of the total length modulo 7. *)
Theorem score_increasing (r1 r2 : ExperimentRecord) :
  complete r1 -> complete r2 -> remainder_of r1 < remainder_of r2 ->
  (consistency_score (synthesize_temporal_summary r1)
   <? consistency_score (synthesize_temporal_summary r2))%float = true.
Proof.
  intros H1 H2 Hlt. rewrite (score_complete r1 H1), (score_complete r2 H2).
  apply code_score_increasing; auto using remainder_of_range.
Qed.

(** The second demonstration record has remainder 5, [six_chars] has 6. *)
Lemma score_increasing_witness :
  (consistency_score (synthesize_temporal_summary experiment_2)
   <? consistency_score (synthesize_temporal_summary six_chars))%float = true.
Proof.
  apply (score_increasing experiment_2 six_chars).
  - repeat split; discriminate.
  - repeat split; discriminate.
  - vm_compute. reflexivity.
Defined.

(** X5. The score is already rounded: rounding it to two decimals again
    returns it unchanged. *)
Theorem score_round_fixed (r : ExperimentRecord) :
  Py.round (consistency_score (synthesize_temporal_summary r)) 2
  = consistency_score (synthesize_temporal_summary r).
Proof.
  destruct (complete_dec r) as [Hc | Hc].
  - rewrite (score_complete r Hc). apply code_score_rounded, remainder_of_range.
  - rewrite (score_incomplete r Hc). reflexivity.
Qed.

End ScoreShape.


(** ** Further properties of the echo *)

Section EchoShape.

Lemma or_placeholder_nonempty (s placeholder : string) :
  placeholder <> "" -> Py.or_ s placeholder <> "".
Proof. destruct s; [intros H; exact H | discriminate]. Qed.

Lemma details_lookup (r : ExperimentRecord) :
  let d := experiment_details (synthesize_temporal_summary r) in
  d !! "past_state" = Some (VStr (Py.or_ (past_of r) "(not specified)"))
  /\ d !! "future_constraint" = Some (VStr (Py.or_ (future_of r) "(not specified)"))
  /\ d !! "final_state" = Some (VStr (Py.or_ (final_of r) "(not specified)"))
  /\ d !! "notes" = Some (VStr (Py.or_ (notes_of r) "(none)"))
  /\ d !! "seed" = Some (VInt (seed_of r))
  /\ d !! "iterations" = Some (VInt (iterations_of r)).
Proof.
  intros d. subst d. rewrite details_unfold.
  split; [reflexivity |]. split; [reflexivity |]. split; [reflexivity |].
  split; [reflexivity |]. split; reflexivity.
Qed.

Lemma summary_ext (s1 s2 : ExperimentSummary) :
  consistency_score s1 = consistency_score s2 ->
  convergence_notes s1 = convergence_notes s2 ->
  disclaimer s1 = disclaimer s2 ->
  experiment_details s1 = experiment_details s2 ->
  s1 = s2.
Proof. destruct s1, s2; simpl; intros; subst; reflexivity. Qed.

(** X6. The four texts of [experiment_details] are never empty, whatever the
    record: an empty or absent input is replaced by a non-empty
    placeholder. *)
Theorem details_texts_nonempty (r : ExperimentRecord) :
  let d := experiment_details (synthesize_temporal_summary r) in
  holds_text d "past_state" /\ holds_text d "future_constraint"
  /\ holds_text d "final_state" /\ holds_text d "notes".
Proof.
  intros d. destruct (details_lookup r) as (Hp & Hf & Hl & Hn & _ & _).
  fold d in Hp, Hf, Hl, Hn.
  split; [| split; [| split]]; eexists; (split; [eassumption |]);
    apply or_placeholder_nonempty; discriminate.
Qed.

(** The echo holds the seed and the iteration count as they were read. *)
Lemma same_details_same_counts (r1 r2 : ExperimentRecord) :
  experiment_details (synthesize_temporal_summary r1)
  = experiment_details (synthesize_temporal_summary r2) ->
  seed_of r1 = seed_of r2 /\ iterations_of r1 = iterations_of r2.
Proof.
  intros Heq.
  destruct (details_lookup r1) as (_ & _ & _ & _ & Hs1 & Hi1).
  destruct (details_lookup r2) as (_ & _ & _ & _ & Hs2 & Hi2).
  rewrite Heq in Hs1, Hi1. rewrite Hs1 in Hs2. rewrite Hi1 in Hi2.
  injection Hs2 as Hs. injection Hi2 as Hi. split; assumption.
Qed.

(** X7. Summaries with the same [experiment_details] have the same seed
    and iteration count, hence the same convergence notes. *)
Theorem details_determine_notes (r1 r2 : ExperimentRecord) :
  experiment_details (synthesize_temporal_summary r1)
  = experiment_details (synthesize_temporal_summary r2) ->
  seed_of r1 = seed_of r2
  /\ iterations_of r1 = iterations_of r2
  /\ convergence_notes (synthesize_temporal_summary r1)
     = convergence_notes (synthesize_temporal_summary r2).
Proof.
  intros Heq. destruct (same_details_same_counts r1 r2 Heq) as [Hs Hi].
  split; [exact Hs |]. split; [exact Hi |].
  rewrite !notes_unfold. now rewrite Hs, Hi.
Qed.

(** A record without [past_state] and the same record with the
    placeholder as its [past_state] have the same echo. *)
Lemma details_determine_notes_witness :
  let r1 := without k_past_state experiment_2 in
  let r2 := with_past_state "(not specified)" experiment_2 in
  seed_of r1 = seed_of r2
  /\ iterations_of r1 = iterations_of r2
  /\ convergence_notes (synthesize_temporal_summary r1)
     = convergence_notes (synthesize_temporal_summary r2).
Proof.
  intros r1 r2. apply (details_determine_notes r1 r2).
  vm_compute. reflexivity.
Defined.

(** X8. On complete records the echo loses nothing the summary depends on:
    two complete records with the same [experiment_details] have the same
    three texts and the same summary. *)
Theorem details_determine_summary (r1 r2 : ExperimentRecord) :
  complete r1 -> complete r2 ->
  experiment_details (synthesize_temporal_summary r1)
  = experiment_details (synthesize_temporal_summary r2) ->
  past_of r1 = past_of r2 /\ future_of r1 = future_of r2
  /\ final_of r1 = final_of r2
  /\ synthesize_temporal_summary r1 = synthesize_temporal_summary r2.
Proof.
  intros (Hp1 & Hf1 & Hl1) (Hp2 & Hf2 & Hl2) Heq.
  destruct (details_lookup r1) as (Ha1 & Hb1 & Hc1 & _).
  destruct (details_lookup r2) as (Ha2 & Hb2 & Hc2 & _).
  rewrite Heq in Ha1, Hb1, Hc1.
  rewrite Ha1 in Ha2. rewrite Hb1 in Hb2. rewrite Hc1 in Hc2.
  rewrite !or_nonempty in Ha2, Hb2, Hc2 by assumption.
  injection Ha2 as Ha. injection Hb2 as Hb. injection Hc2 as Hc.
  split; [exact Ha |]. split; [exact Hb |]. split; [exact Hc |].
  destruct (same_details_same_counts r1 r2 Heq) as [Hs Hi].
  apply summary_ext; [| | reflexivity | exact Heq].
  - rewrite !score_unfold. unfold len_sum_of. now rewrite Ha, Hb, Hc.
  - rewrite !notes_unfold. now rewrite Hs, Hi.
Qed.

(** The second demonstration record, once without [notes] and once with
    empty [notes]. *)
Lemma details_determine_summary_witness :
  let r1 := without k_notes experiment_2 in
  let r2 := with_default k_notes experiment_2 in
  past_of r1 = past_of r2 /\ future_of r1 = future_of r2
  /\ final_of r1 = final_of r2
  /\ synthesize_temporal_summary r1 = synthesize_temporal_summary r2.
Proof.
  intros r1 r2. apply (details_determine_summary r1 r2).
  - split; [discriminate |]. split; discriminate.
  - split; [discriminate |]. split; discriminate.
  - vm_compute. reflexivity.
Defined.

(** X9. The echo cannot tell an empty text from a text that spells the
    placeholder: when [past_state] is empty or absent, setting it to
    [(not specified)] leaves [experiment_details] and the notes unchanged,
    while the score, 0.0 before, becomes at least 0.5 if the two other
    texts are non-empty. *)
Theorem placeholder_collision (r : ExperimentRecord) :
  past_of r = "" -> future_of r <> "" -> final_of r <> "" ->
  let r' := with_past_state "(not specified)" r in
  experiment_details (synthesize_temporal_summary r')
  = experiment_details (synthesize_temporal_summary r)
  /\ convergence_notes (synthesize_temporal_summary r')
     = convergence_notes (synthesize_temporal_summary r)
  /\ consistency_score (synthesize_temporal_summary r) = 0.0%float
  /\ (0.5 <=? consistency_score (synthesize_temporal_summary r'))%float = true.
Proof.
  intros Hp Hf Hl r'.
  assert (Hd : experiment_details (synthesize_temporal_summary r')
               = experiment_details (synthesize_temporal_summary r)).
  { rewrite !details_unfold. rewrite Hp. reflexivity. }
  split; [exact Hd |]. split; [reflexivity |]. split.
  - apply score_incomplete. intros (H & _). contradiction.
  - assert (Hc : complete r').
    { split; [discriminate |]. split; assumption. }
    rewrite (score_complete r' Hc).
    apply code_score_range, remainder_of_range.
Qed.

Lemma placeholder_collision_witness :
  let r := without k_past_state experiment_2 in
  let r' := with_past_state "(not specified)" r in
  experiment_details (synthesize_temporal_summary r')
  = experiment_details (synthesize_temporal_summary r)
  /\ convergence_notes (synthesize_temporal_summary r')
     = convergence_notes (synthesize_temporal_summary r)
  /\ consistency_score (synthesize_temporal_summary r) = 0.0%float
  /\ (0.5 <=? consistency_score (synthesize_temporal_summary r'))%float = true.
Proof.
  intros r. apply (placeholder_collision r); [reflexivity | discriminate | discriminate].
Defined.

End EchoShape.


(** ** Reading the inputs back from the notes *)

Section NotesDecoding.

Import Stdlib.Strings.Ascii.

Lemma append_assoc (a b c : string) : (a +:+ b) +:+ c = a +:+ b +:+ c.
Proof.
  induction a as [|x a IH]; [reflexivity |].
  change (String x ((a +:+ b) +:+ c) = String x (a +:+ b +:+ c)). now f_equal.
Qed.

(** Two strings cut at the first occurrence of [c] agree part by part. *)
Lemma cut_at (c : Ascii.ascii) (s1 s2 t1 t2 : string) :
  lacks c s1 = true -> lacks c s2 = true ->
  s1 +:+ String c t1 = s2 +:+ String c t2 -> s1 = s2 /\ t1 = t2.
Proof.
  revert s2. induction s1 as [|a s1 IH]; intros [|b s2] H1 H2 Heq.
  - injection Heq as ->. split; reflexivity.
  - injection Heq as Hc _. subst b.
    cbn in H2. rewrite Ascii.eqb_refl in H2. discriminate H2.
  - injection Heq as Hc _. subst a.
    cbn in H1. rewrite Ascii.eqb_refl in H1. discriminate H1.
  - change (String a (s1 +:+ String c t1) = String b (s2 +:+ String c t2)) in Heq.
    injection Heq as -> Heq.
    cbn in H1, H2. apply andb_true_iff in H1 as [_ H1].
    apply andb_true_iff in H2 as [_ H2].
    destruct (IH s2 H1 H2 Heq) as [-> ->]. split; reflexivity.
Qed.

(** The digits of a number contain neither a space nor a closing
    parenthesis. *)
Lemma digits_lack (c : Ascii.ascii) (d : Decimal.uint) :
  is_separator c ->
  lacks c (NilEmpty.string_of_uint d) = true.
Proof.
  intros Hc. induction d; cbn [NilEmpty.string_of_uint lacks];
    try reflexivity; rewrite IHd; destruct Hc as [-> | ->]; reflexivity.
Qed.

Lemma str_lacks (c : Ascii.ascii) (n : Z) :
  is_separator c -> lacks c (Py.str n) = true.
Proof.
  intros Hc. unfold Py.str, NilZero.string_of_int, NilZero.string_of_uint.
  assert (Hzero : lacks c "0" = true) by (destruct Hc as [-> | ->]; reflexivity).
  assert (Hminus : forall s, lacks c s = true -> lacks c (String "-"%char s) = true).
  { intros s Hs. cbn [lacks]. rewrite Hs. destruct Hc as [-> | ->]; reflexivity. }
  destruct (Z.to_int n) as [d | d]; [| apply Hminus];
    (destruct d eqn:Hd; [exact Hzero | rewrite <- Hd; apply digits_lack; exact Hc ..]).
Qed.

(** [str] can be read back: it is injective. *)
Lemma str_inj (n m : Z) : Py.str n = Py.str m -> n = m.
Proof.
  intros Heq. apply DecimalZ.to_int_inj.
  assert (Hread : forall z, NilZero.int_of_string (Py.str z) = Some (Z.to_int z)).
  { intros z. apply NilZero.isi; destruct z; cbn; try discriminate;
      intros [= H]; exact (DecimalPos.Unsigned.to_uint_nonnil _ H). }
  assert (H := Hread n). rewrite Heq, Hread in H. now injection H.
Qed.

(** The seed suffix determines the seed when it is positive. *)
Lemma seed_suffix_inj (s1 s2 : Z) :
  seed_suffix s1 = seed_suffix s2 -> Z.max 0 s1 = Z.max 0 s2.
Proof.
  unfold seed_suffix.
  destruct (Z.ltb_spec 0 s1), (Z.ltb_spec 0 s2); intros Heq; try discriminate Heq;
    [| lia].
  apply (String.app_inj " (Reproducible with seed=") in Heq.
  destruct (cut_at ")"%char (Py.str s1) (Py.str s2) "" "") as [Hs _];
    [apply str_lacks; now right .. | exact Heq |].
  apply str_inj in Hs. lia.
Qed.

(** A sentence built around a number, followed by anything, determines
    the number and what follows the number, when both tails start with a
    space. *)
Lemma around_number (pre : string) (n m : Z) (t1 t2 : string) :
  pre +:+ Py.str n +:+ String " "%char t1
  = pre +:+ Py.str m +:+ String " "%char t2 ->
  n = m /\ t1 = t2.
Proof.
  intros Heq. apply (String.app_inj pre) in Heq.
  destruct (cut_at " "%char (Py.str n) (Py.str m) t1 t2) as [Hs Ht];
    [apply str_lacks; now left .. | exact Heq |].
  split; [now apply str_inj | exact Ht].
Qed.

(** The notes determine the iteration count and the seed suffix. *)
Lemma base_notes_suffix_inj (n m : Z) (x y : string) :
  base_notes n +:+ x = base_notes m +:+ y -> n = m /\ x = y.
Proof.
  unfold base_notes.
  destruct (Z.eqb_spec n 0) as [-> | Hn0], (Z.eqb_spec m 0) as [-> | Hm0].
  - intros Heq. split; [reflexivity |].
    now apply (String.app_inj _) in Heq.
  - destruct (m <? 100); [| destruct (m <? 1000)]; intros Heq; discriminate Heq.
  - destruct (n <? 100); [| destruct (n <? 1000)]; intros Heq; discriminate Heq.
  - destruct (n <? 100); [| destruct (n <? 1000)];
      (destruct (m <? 100); [| destruct (m <? 1000)]);
      rewrite !append_assoc; intros Heq;
      try (apply around_number in Heq as [-> Ht]; split; [reflexivity |];
           first [ discriminate Ht | repeat (injection Ht as Ht); exact Ht ]);
      try (cbn in Heq; discriminate Heq).
Qed.

(** X10. The convergence notes can be read back: two records with the same
    notes have the same iteration count and, as far as it is positive, the
    same seed. *)
Theorem notes_determine_inputs (r1 r2 : ExperimentRecord) :
  convergence_notes (synthesize_temporal_summary r1)
  = convergence_notes (synthesize_temporal_summary r2) ->
  iterations_of r1 = iterations_of r2
  /\ Z.max 0 (seed_of r1) = Z.max 0 (seed_of r2).
Proof.
  rewrite !notes_unfold. intros Heq.
  apply base_notes_suffix_inj in Heq as [Hi Hs].
  split; [exact Hi | now apply seed_suffix_inj].
Qed.

(** The second demonstration record with and without its [notes] key:
    two records, one text of notes. *)
Lemma notes_determine_inputs_witness :
  let r := without k_notes experiment_2 in
  iterations_of experiment_2 = iterations_of r
  /\ Z.max 0 (seed_of experiment_2) = Z.max 0 (seed_of r).
Proof.
  intros r. apply (notes_determine_inputs experiment_2 r). reflexivity.
Defined.

End NotesDecoding.


(** ** When the call returns *)

Section Outcome.

Lemma format_int_returns (n : Z) :
  ~ overlong n -> Py.format_int n = Py.Returns (Py.str n).
Proof.
  unfold overlong, Py.format_int. intros H.
  destruct (Z.ltb_spec Py.int_max_str_digits (Py.str_digits n)); [lia | reflexivity].
Qed.

Lemma format_int_raises (n : Z) :
  overlong n -> Py.format_int n = Py.Raises Py.ValueError.
Proof.
  unfold overlong, Py.format_int. intros H.
  destruct (Z.ltb_spec Py.int_max_str_digits (Py.str_digits n)); [reflexivity | lia].
Qed.

Lemma overlong_dec (n : Z) : overlong n \/ ~ overlong n.
Proof. unfold overlong. lia. Qed.

(** Zero is shown without any conversion; any other count is converted. *)
Lemma base_notes_outcome_returns (n : Z) :
  n = 0 \/ ~ overlong n -> base_notes_outcome n = Py.Returns (base_notes n).
Proof.
  intros H. unfold base_notes_outcome, base_notes.
  destruct (Z.eqb_spec n 0) as [-> | Hn]; [reflexivity |].
  destruct H as [H | H]; [contradiction |].
  rewrite (format_int_returns n H).
  destruct (n <? 100); [reflexivity |]. destruct (n <? 1000); reflexivity.
Qed.

Lemma base_notes_outcome_raises (n : Z) :
  n <> 0 -> overlong n -> base_notes_outcome n = Py.Raises Py.ValueError.
Proof.
  intros Hn H. unfold base_notes_outcome.
  destruct (Z.eqb_spec n 0) as [-> | _]; [contradiction |].
  rewrite (format_int_raises n H).
  destruct (n <? 100); [reflexivity |]. destruct (n <? 1000); reflexivity.
Qed.

(** Without an overlong number to show, the call returns the summary. *)
Lemma outcome_returns (r : ExperimentRecord) :
  ~ shows_overlong r ->
  synthesize_temporal_summary_outcome r
  = Py.Returns (synthesize_temporal_summary r).
Proof.
  unfold shows_overlong. intros H.
  unfold synthesize_temporal_summary_outcome, synthesize_temporal_summary.
  rewrite base_notes_outcome_returns.
  2:{ destruct (Z.eq_dec (Py.get (iterations r) 0) 0) as [Hz | Hz]; [now left |].
      right. intros Ho. apply H. left. split; assumption. }
  cbn [Py.bind].
  destruct (Z.ltb_spec 0 (Py.get (seed r) 0)) as [Hpos | Hneg]; [| reflexivity].
  rewrite format_int_returns; [reflexivity |].
  intros Ho. apply H. right. split; assumption.
Qed.

(** With an overlong number to show, the call raises [ValueError]. *)
Lemma outcome_raises (r : ExperimentRecord) :
  shows_overlong r ->
  synthesize_temporal_summary_outcome r = Py.Raises Py.ValueError.
Proof.
  unfold shows_overlong. intros H.
  unfold synthesize_temporal_summary_outcome.
  destruct (Z.eq_dec (Py.get (iterations r) 0) 0) as [Hz | Hz].
  - destruct H as [[Hn _] | [Hpos Ho]]; [contradiction |].
    rewrite base_notes_outcome_returns by now left. cbn [Py.bind].
    destruct (Z.ltb_spec 0 (Py.get (seed r) 0)); [| lia].
    now rewrite (format_int_raises _ Ho).
  - destruct (overlong_dec (Py.get (iterations r) 0)) as [Ho | Ho].
    + now rewrite (base_notes_outcome_raises _ Hz Ho).
    + destruct H as [[_ Hi] | [Hpos Hs]]; [contradiction |].
      rewrite base_notes_outcome_returns by now right. cbn [Py.bind].
      destruct (Z.ltb_spec 0 (Py.get (seed r) 0)); [| lia].
      now rewrite (format_int_raises _ Hs).
Qed.

Lemma shows_overlong_dec (r : ExperimentRecord) :
  shows_overlong r \/ ~ shows_overlong r.
Proof. unfold shows_overlong, overlong. lia. Qed.

(** C10, counterexample. On a record whose iteration count is
    [-(10 ^ 5000)], a negative number of 5001 digits, the call does not
    return a summary: it raises [ValueError]. *)
Lemma negative_iterations_can_raise :
  Py.get (iterations huge_negative) 0 < 0
  /\ synthesize_temporal_summary_outcome huge_negative = Py.Raises Py.ValueError.
Proof. split; [reflexivity | vm_compute; reflexivity]. Qed.

(** C10, amended. For every record with a negative iteration count whose
    numeral has at most 4300 digits, and whose seed, when positive, has at
    most 4300 digits too, the call returns a summary: its notes are the
    early-termination sentence with the negative number interpolated,
    minus sign included, followed by the seed suffix if any, and its
    [experiment_details] echo the negative count unchanged. *)
Theorem negative_iterations (r : ExperimentRecord) (n : Z) :
  iterations r = Some n -> n < 0 ->
  Py.str_digits n <= Py.int_max_str_digits ->
  (seed_of r <= 0 \/ Py.str_digits (seed_of r) <= Py.int_max_str_digits) ->
  exists s : ExperimentSummary,
    synthesize_temporal_summary_outcome r = Py.Returns s
    /\ convergence_notes s
       = ("Simulation ran for " +:+ Py.str n +:+
          " iterations. Early termination detected; results may not represent full convergence.")
         +:+ seed_suffix (seed_of r)
    /\ Py.str n = "-" +:+ Py.str (- n)
    /\ experiment_details s !! "iterations" = Some (VInt n).
Proof.
  intros Hn Hneg Hdigits Hseed.
  exists (synthesize_temporal_summary r). split.
  - apply outcome_returns. unfold shows_overlong, overlong.
    unfold seed_of in Hseed. rewrite Hn. cbn [Py.get]. lia.
  - apply negative_iterations_value; assumption.
Qed.

Lemma negative_iterations_witness :
  exists s : ExperimentSummary,
    synthesize_temporal_summary_outcome minus_five = Py.Returns s
    /\ convergence_notes s
       = "Simulation ran for -5 iterations. Early termination detected; results may not represent full convergence."
    /\ Py.str (-5) = "-5"
    /\ experiment_details s !! "iterations" = Some (VInt (-5)).
Proof.
  apply (negative_iterations minus_five (-5)).
  - reflexivity.
  - lia.
  - vm_compute. discriminate.
  - left. vm_compute. discriminate.
Defined.

(** X11. The call raises [ValueError] exactly when it has to show an
    overlong number: an iteration count other than zero, or a positive
    seed, whose numeral has more than 4300 digits. In every other case it
    returns the summary the rest of this file describes. Overlong numbers
    that are not shown (a seed that is not positive) do no harm. *)
Theorem outcome_characterised (r : ExperimentRecord) :
  (synthesize_temporal_summary_outcome r = Py.Raises Py.ValueError
   <-> shows_overlong r)
  /\ (synthesize_temporal_summary_outcome r
      = Py.Returns (synthesize_temporal_summary r)
      <-> ~ shows_overlong r).
Proof.
  destruct (shows_overlong_dec r) as [H | H].
  - rewrite (outcome_raises r H). split; split; intros H'.
    + exact H.
    + reflexivity.
    + discriminate H'.
    + contradiction.
  - rewrite (outcome_returns r H). split; split; intros H'.
    + discriminate H'.
    + contradiction.
    + exact H.
    + reflexivity.
Qed.

End Outcome.
